(** * AsyncCasdoorSDK: a shallow embedding of [src/casdoor/async_main.py]

    The SDK is a thin asynchronous client: it builds HTTP requests from a
    configuration object, hands them to an [aiohttp] session and post-processes
    the answers.  Python dictionaries are finite maps with string keys,
    optional arguments are [option], exceptions are an explicit result type and
    every network exchange is a node of a small interaction monad whose
    continuation receives whatever the remote side answers. *)

From Stdlib Require Import ZArith Lia.
From stdpp Require Import base option strings gmap fin_maps.

Local Open Scope string_scope.
Local Open Scope Z_scope.

(** ** Python values *)

(** The values [json.loads] can produce and [json.dumps] can consume.  A float
    is kept as its IEEE-754 bit pattern; no operation of the SDK looks inside
    it. *)
#[local] Unset Elimination Schemes.
Inductive pyval : Type :=
  | PyNone
  | PyBool (b : bool)
  | PyInt (z : Z)
  | PyFloat (bits : Z)
  | PyStr (s : string)
  | PyList (l : list pyval)
  | PyDict (d : gmap string pyval).
#[local] Set Elimination Schemes.

(** [isinstance(v, bool)].  An [int] is not a [bool]. *)
Definition isinstance_bool (v : pyval) : bool :=
  match v with PyBool _ => true | _ => false end.

(** Truth value of an [Optional[str]] argument, as tested by [if x:].  Both
    [None] and the empty string are false. *)
Definition truthy (x : option string) : bool :=
  match x with
  | None => false
  | Some EmptyString => false
  | Some (String _ _) => true
  end.

(** Python's [a and b] on two [Optional[str]] operands, used as a condition. *)
Definition truthy_and (a b : option string) : bool :=
  if truthy a then truthy b else false.

(** ** Exceptions *)

Inductive exn : Type :=
  | ValueError (msg : string)
  | KeyError (key : string)
  | AttributeError (attr : string)
  | TypeError (msg : string)
  (* raised by the certificate and token libraries *)
  | CertificateError
  | MalformedTokenError
  | SignatureError
  | TokenExpiredError
  | AudienceMismatchError
  (* anything the HTTP collaborator raises on its own *)
  | TransportError (what : string).

Inductive result (A : Type) : Type :=
  | Ok (a : A)
  | Raise (e : exn).
Arguments Ok {A} a.
Arguments Raise {A} e.

(** ** Strings *)

Module PyString.

(** [prefix p s]: [s.startswith(p)]. *)
Fixpoint startswith (p s : string) : bool :=
  match p, s with
  | EmptyString, _ => true
  | String a p', String b s' => if Ascii.eqb a b then startswith p' s' else false
  | String _ _, EmptyString => false
  end.

(** [needle in hay] for strings. *)
Fixpoint contains (needle hay : string) : bool :=
  if startswith needle hay then true
  else match hay with
       | EmptyString => false
       | String _ hay' => contains needle hay'
       end.

(** [s.replace(old, new)] for a non-empty [old]: the occurrences of [old]
    are found left to right and do not overlap.  [skip] counts the characters
    of a matched occurrence that are still to be dropped. *)
Fixpoint replace_from (old new : string) (skip : nat) (s : string) : string :=
  match s with
  | EmptyString => EmptyString
  | String c s' =>
      match skip with
      | S k => replace_from old new k s'
      | O =>
          if startswith old s
          then new +:+ replace_from old new (Nat.pred (String.length old)) s'
          else String c (replace_from old new O s')
      end
  end.

Definition replace (old new s : string) : string := replace_from old new O s.

End PyString.

(** ** Configuration *)

(** The attributes [__init__] stores on [self].  The session object is the
    interaction monad below. *)
Record AsyncCasdoorSDK : Type := mkSDK {
  endpoint : string;
  front_endpoint : string;
  client_id : string;
  client_secret : string;
  certificate : string;
  org_name : string;
  application_name : string;
  grant_type : string;
  algorithms : list string
}.

(** [AsyncCasdoorSDK.__init__]. *)
Definition init (endpoint client_id client_secret certificate org_name
                 application_name : string)
                (front_endpoint : option string) : AsyncCasdoorSDK :=
  {| endpoint := endpoint;
     front_endpoint :=
       if truthy front_endpoint
       then default "" front_endpoint
       else PyString.replace ":8000" ":7001" endpoint;
     client_id := client_id;
     client_secret := client_secret;
     certificate := certificate;
     org_name := org_name;
     application_name := application_name;
     grant_type := "authorization_code";
     algorithms := ["RS256"] |}.

(** ** Payload builder *)

Section Payload.
Variable self : AsyncCasdoorSDK.

(** [__get_payload_for_authorization_code]. *)
Definition get_payload_for_authorization_code (code : string)
  : gmap string string :=
  <["code" := code]>
    (<["client_secret" := client_secret self]>
       (<["client_id" := client_id self]>
          {["grant_type" := "authorization_code"]})).

(** [__get_payload_for_password_credentials]. *)
Definition get_payload_for_password_credentials (username password : string)
  : gmap string string :=
  <["password" := password]>
    (<["username" := username]>
       (<["client_secret" := client_secret self]>
          (<["client_id" := client_id self]>
             {["grant_type" := "password"]}))).

(** [__get_payload_for_client_credentials]. *)
Definition get_payload_for_client_credentials : gmap string string :=
  <["client_secret" := client_secret self]>
    (<["client_id" := client_id self]>
       {["grant_type" := "client_credentials"]}).

(** [_get_payload_for_access_token_request]. *)
Definition _get_payload_for_access_token_request
    (code username password : option string) : gmap string string :=
  if truthy code then
    get_payload_for_authorization_code (default "" code)
  else if truthy_and username password then
    get_payload_for_password_credentials (default "" username)
                                         (default "" password)
  else
    get_payload_for_client_credentials.

End Payload.

(** ** The HTTP collaborator *)

Inductive http_method : Type := GET | POST.

(** What a call passes as [data=] (a form mapping or a ready-made text) or as
    [json=] (a value the session serialises itself). *)
Inductive body : Type :=
  | NoBody
  | FormData (d : gmap string string)
  | TextData (s : string)
  | JsonBody (v : pyval).

Record Request : Type := mkRequest {
  req_method : http_method;
  req_url : string;
  req_params : gmap string string;
  req_body : body
}.

(** A delivered response.  [headers] is the case-insensitive header table,
    keyed here by lower-case names.  [json] and [text] are the outcomes of
    [await response.json()] and [await response.text()], which may themselves
    raise.  [text_repr] is [str(response.text)], the printed form of the bound
    method itself. *)
Record Response : Type := mkResponse {
  status : Z;
  headers : gmap string string;
  json : result pyval;
  text : result string;
  text_repr : string
}.

(** Programs that talk to the remote service: each [Await] hands a request to
    the session and continues with its outcome, a delivered response or the
    exception the transport raised. *)
Inductive io (A : Type) : Type :=
  | Return (a : A)
  | Await (req : Request) (k : result Response -> io A).
Arguments Return {A} a.
Arguments Await {A} req k.

Fixpoint io_bind {A B} (m : io A) (f : A -> io B) : io B :=
  match m with
  | Return a => f a
  | Await req k => Await req (fun r => io_bind (k r) f)
  end.

(** An [async def] that may raise. *)
Definition aio (A : Type) : Type := io (result A).

Definition aio_ret {A} (a : A) : aio A := Return (Ok a).
Definition aio_raise {A} (e : exn) : aio A := Return (Raise e).
Definition aio_bind {A B} (m : aio A) (f : A -> aio B) : aio B :=
  io_bind m (fun r => match r with Ok a => f a | Raise e => Return (Raise e) end).
Definition aio_lift {A} (r : result A) : aio A := Return r.

Notation "'let*' x ':=' m 'in' k" := (aio_bind m (fun x => k))
  (at level 10, x name, m at level 100, k at level 200).

(** [async with self._session.get/post(url, ...) as response]. *)
Definition session_request (req : Request) : aio Response := Await req Return.

(** Running a program against a remote side with its own state. *)
Section Run.
Context {S : Type} (server : S -> Request -> S * result Response).

Fixpoint run {A} (m : io A) (s : S) : S * A :=
  match m with
  | Return a => (s, a)
  | Await req k => let '(s', r) := server s req in run (k r) s'
  end.
End Run.

(** ** Token client *)

Section TokenClient.
Variable self : AsyncCasdoorSDK.

(** The request [_oauth_token_request] posts: the payload as form data. *)
Definition access_token_call (payload : gmap string string) : Request :=
  let url := endpoint self +:+ "/api/login/oauth/access_token" in
  mkRequest POST url ∅ (FormData payload).

(** [_oauth_token_request]. *)
Definition _oauth_token_request (payload : gmap string string) : aio pyval :=
  let* response := session_request (access_token_call payload) in
  aio_lift (json response).

(** [oauth_token_request]. *)
Definition oauth_token_request (code username password : option string)
  : aio pyval :=
  let params :=
    _get_payload_for_access_token_request self code username password in
  _oauth_token_request params.

(** [get_oauth_token]. *)
Definition get_oauth_token (code username password : option string)
  : aio pyval :=
  let* response := oauth_token_request code username password in
  let token := response in
  aio_ret token.

(** The request [refresh_token_request] posts. *)
Definition refresh_token_call (refresh_token scope : string) : Request :=
  let url := endpoint self +:+ "/api/login/oauth/refresh_token" in
  let params : gmap string string :=
    <["refresh_token" := refresh_token]>
      (<["scope" := scope]>
         (<["client_secret" := client_secret self]>
            (<["client_id" := client_id self]>
               {["grant_type" := "refresh_token"]}))) in
  mkRequest POST url ∅ (FormData params).

(** [refresh_token_request]. *)
Definition refresh_token_request (refresh_token scope : string) : aio pyval :=
  let* request := session_request (refresh_token_call refresh_token scope) in
  aio_lift (json request).

(** [r.get(key)]: only a dictionary has the method. *)
Definition py_get (r : pyval) (key : string) : result pyval :=
  match r with
  | PyDict d => Ok (default PyNone (d !! key))
  | _ => Raise (AttributeError "get")
  end.

(** [refresh_oauth_token]. *)
Definition refresh_oauth_token (refresh_token scope : string) : aio pyval :=
  let* r := refresh_token_request refresh_token scope in
  let* access_token := aio_lift (py_get r "access_token") in
  aio_ret access_token.

End TokenClient.

(** ** JWT verifier *)

(** A token split into its three parts and decoded: the header's algorithm,
    the claims of the payload, the signed text and the signature. *)
Record Jwt : Type := mkJwt {
  jwt_alg : string;
  jwt_claims : gmap string pyval;
  jwt_signing_input : string;
  jwt_signature : string
}.

Section JwtVerifier.
(** The primitives of the [cryptography] and [jwt] packages: reading a PEM
    X.509 certificate and taking its public key, splitting a compact token,
    checking a signature under an algorithm, and the clock. *)
Variable PublicKey : Type.
Variable load_pem_public_key : string -> option PublicKey.
Variable split_token : string -> option Jwt.
Variable verify_signature : PublicKey -> string -> string -> string -> bool.
Variable now : Z.

(** Modelled from the spec: [x509.load_pem_x509_certificate(...).public_key()]
    of the external [cryptography] package, which is not part of the sources.
    Step 1 of the verifier: parse the PEM certificate and extract its public
    key; fails with [CertificateError] if the text is not a valid PEM
    X.509 certificate. *)
Definition load_pem_x509_certificate (pem : string) : result PublicKey :=
  match load_pem_public_key pem with
  | Some key => Ok key
  | None => Raise CertificateError
  end.

(** The expiry claim, when the token carries one, lies in the past. *)
Definition expired (claims : gmap string pyval) : bool :=
  match claims !! "exp" with
  | Some (PyInt e) => e <? now
  | _ => false
  end.

(** The audience claim equals the expected audience. *)
Definition audience_ok (claims : gmap string pyval) (audience : string) : bool :=
  match claims !! "aud" with
  | Some (PyStr a) => String.eqb a audience
  | _ => false
  end.

(** Modelled from the spec: [jwt.decode] of the external [jwt] package, which
    is not part of the sources.  A token that is not a well-formed three-part
    structure fails with [MalformedTokenError]; step 2 verifies the signature
    with the given public key and accepts only the algorithms of the
    allow-list, failing with [SignatureError]; an expiry claim in the past
    fails with [TokenExpiredError]; step 3 requires the audience claim to
    equal the expected audience and fails with [AudienceMismatchError]
    otherwise; step 4 returns the decoded claims. *)
Definition jwt_decode (token : string) (key : PublicKey)
    (algorithms : list string) (audience : string)
  : result (gmap string pyval) :=
  match split_token token with
  | None => Raise MalformedTokenError
  | Some t =>
      if negb (bool_decide (jwt_alg t ∈ algorithms)) then
        Raise SignatureError
      else if negb (verify_signature key (jwt_alg t)
                      (jwt_signing_input t) (jwt_signature t)) then
        Raise SignatureError
      else if expired (jwt_claims t) then
        Raise TokenExpiredError
      else if negb (audience_ok (jwt_claims t) audience) then
        Raise AudienceMismatchError
      else
        Ok (jwt_claims t)
  end.

(** The [certification] property.  The certificate is a [str] by typing, so
    the [TypeError] branch is not reachable here; the encoded bytes are the
    text itself. *)
Definition certification (self : AsyncCasdoorSDK) : result string :=
  Ok (certificate self).

(** [parse_jwt_token]. *)
Definition parse_jwt_token (self : AsyncCasdoorSDK) (token : string)
  : result (gmap string pyval) :=
  match certification self with
  | Raise e => Raise e
  | Ok pem =>
      match load_pem_x509_certificate pem with
      | Raise e => Raise e
      | Ok public_key =>
          let return_json :=
            jwt_decode token public_key (algorithms self) (client_id self) in
          return_json
      end
  end.

End JwtVerifier.

(** ** Facade *)

Definition nl : string := String (Ascii.ascii_of_nat 10) EmptyString.

(** [d[key]] on the header table. *)
Definition getitem (d : gmap string string) (key : string) : result string :=
  match d !! key with
  | Some v => Ok v
  | None => Raise (KeyError key)
  end.

Definition opt_str (x : option string) : pyval :=
  match x with Some s => PyStr s | None => PyNone end.

Section Enforce.
Variable self : AsyncCasdoorSDK.

Definition enforce_request (permission_model_name sub obj act : string)
    (v3 v4 v5 : option string) : Request :=
  let url := endpoint self +:+ "/api/enforce" in
  let query_params : gmap string string :=
    <["clientSecret" := client_secret self]>
      {["clientId" := client_id self]} in
  let params : gmap string pyval :=
    <["v5" := opt_str v5]>
      (<["v4" := opt_str v4]>
         (<["v3" := opt_str v3]>
            (<["v2" := PyStr act]>
               (<["v1" := PyStr obj]>
                  (<["v0" := PyStr sub]>
                     {["id" := PyStr permission_model_name]}))))) in
  mkRequest POST url query_params (JsonBody (PyDict params)).

(** The guard of [enforce]:
    [response.status != 200 or "json" not in response.headers["content-type"]].
    The right operand is evaluated only when the left one is false. *)
Definition enforce_guard (response : Response) : result bool :=
  if negb (status response =? 200) then Ok true
  else match getitem (headers response) "content-type" with
       | Ok ctype => Ok (negb (PyString.contains "json" ctype))
       | Raise e => Raise e
       end.

(** The body of the [async with] block of [enforce]. *)
Definition enforce_response (response : Response) : aio bool :=
  let* bad := aio_lift (enforce_guard response) in
  if (bad : bool) then
    let error_str := "Casdoor response error:" +:+ nl +:+ text_repr response in
    aio_raise (ValueError error_str)
  else
    let* has_permission := aio_lift (json response) in
    match has_permission with
    | PyBool b => aio_ret b
    | _ =>
        let* body_text := aio_lift (text response) in
        let error_str := "Casdoor response error:" +:+ nl +:+ body_text in
        aio_raise (ValueError error_str)
    end.

(** [enforce]. *)
Definition enforce (permission_model_name sub obj act : string)
    (v3 v4 v5 : option string) : aio bool :=
  let* response :=
    session_request
      (enforce_request permission_model_name sub obj act v3 v4 v5) in
  enforce_response response.

End Enforce.

(** ** Users *)

(** Modelled from the spec: the [User] class of [user.py], which is not part of
    the sources.  A user record is an opaque structured document with an
    [owner] field, a [name] field and any further attributes. *)
Record User : Type := mkUser {
  owner : string;
  name : string;
  attrs : gmap string pyval
}.

(** Modelled from the spec: [User.to_dict] of [user.py], which is not part of
    the sources.  It yields the full user object as a mapping. *)
Definition to_dict (u : User) : gmap string pyval :=
  <["owner" := PyStr (owner u)]> (<["name" := PyStr (name u)]> (attrs u)).

(** [user.owner = v]. *)
Definition set_owner (v : string) (u : User) : User :=
  {| owner := v; name := name u; attrs := attrs u |}.

(** Objects live in a store and are passed by reference. *)
Definition ref : Type := positive.

(** A method that may raise and may update the objects it was given. *)
Definition sio (A : Type) : Type := gmap ref User -> io (gmap ref User * result A).

Section UserApi.
Variable self : AsyncCasdoorSDK.
(** [json.dumps] of the standard library. *)
Variable json_dumps : pyval -> string.

(** The query of [get_user_count]. *)
Definition get_user_count_params (is_online : option bool)
  : gmap string string :=
  let params : gmap string string :=
    <["clientSecret" := client_secret self]>
      (<["clientId" := client_id self]>
         {["owner" := org_name self]}) in
  match is_online with
  | None => <["isOnline" := ""]> params
  | Some b => <["isOnline" := if b then "1" else "0"]> params
  end.

(** [get_user_count]. *)
Definition get_user_count (is_online : option bool) : aio pyval :=
  let url := endpoint self +:+ "/api/get-user-count" in
  let params := get_user_count_params is_online in
  let* request := session_request (mkRequest GET url params NoBody) in
  let* count := aio_lift (json request) in
  aio_ret count.

(** The request [modify_user] sends for a user whose owner has already been
    overwritten. *)
Definition modify_user_request (method : string) (user : User) : Request :=
  let url := endpoint self +:+ "/api/" +:+ method in
  let params : gmap string string :=
    <["clientSecret" := client_secret self]>
      (<["clientId" := client_id self]>
         {["id" := owner user +:+ "/" +:+ name user]}) in
  let user_info := json_dumps (PyDict (to_dict user)) in
  mkRequest POST url params (TextData user_info).

(** [modify_user].  The assignment [user.owner = self.org_name] updates the
    object the caller passed; it is in the store before the request is
    issued.  A reference always designates a live object, so the first
    branch only makes the function total. *)
Definition modify_user (method : string) (user : ref) : sio pyval :=
  fun store =>
    match store !! user with
    | None => Return (store, Raise (AttributeError "owner"))
    | Some u =>
        let store' := <[user := set_owner (org_name self) u]> store in
        match store' !! user with
        | None => Return (store', Raise (AttributeError "owner"))
        | Some u' =>
            Await (modify_user_request method u')
                  (fun r =>
                     match r with
                     | Raise e => Return (store', Raise e)
                     | Ok request =>
                         let response := json request in
                         Return (store', response)
                     end)
        end
    end.

(** [add_user]. *)
Definition add_user (user : ref) : sio pyval :=
  modify_user "add-user" user.

(** [update_user]. *)
Definition update_user (user : ref) : sio pyval :=
  modify_user "update-user" user.

(** [delete_user]. *)
Definition delete_user (user : ref) : sio pyval :=
  modify_user "delete-user" user.

End UserApi.

(** ** Notions used by the statements *)

(** An optional string that is given and is not the empty string. *)
Definition nonempty (x : option string) : Prop :=
  exists s, x = Some s /\ s <> "".

(** The answer of the remote side to one request, followed through a method
    that issues exactly this request. *)
Definition answer {S : Type} (server : S -> Request -> S * result Response)
    (s : S) (req : Request) : result Response :=
  snd (server s req).

(** The first request a program issues, if it issues one. *)
Definition first_request {A} (m : io A) : option Request :=
  match m with
  | Await req _ => Some req
  | Return _ => None
  end.

(** The three public methods built on [modify_user], with the API method each
    one names. *)
Definition user_methods (self : AsyncCasdoorSDK) (json_dumps : pyval -> string)
  : list (string * (ref -> sio pyval)) :=
  [("add-user", add_user self json_dumps);
   ("update-user", update_user self json_dumps);
   ("delete-user", delete_user self json_dumps)].

(** ** Concrete instances for the examples *)

Definition demo : AsyncCasdoorSDK :=
  init "http://localhost:8000" "cid" "secret" "pem" "built-in" "app" None.

(** A remote side without state that answers every request alike. *)
Definition constant_server (response : Response)
  : unit -> Request -> unit * result Response :=
  fun s _ => (s, Ok response).

Definition token_response (body : pyval) : Response :=
  mkResponse 200 {["content-type" := "application/json"]} (Ok body) (Ok "") "".

Definition demo_dumps (v : pyval) : string :=
  match v with PyDict _ => "{...}" | _ => "" end.

Definition demo_user : User :=
  mkUser "someone-else" "alice" {["age" := PyInt 30]}.

Definition demo_store : gmap ref User :=
  <[2%positive := mkUser "other" "bob" ∅]> {[1%positive := demo_user]}.

(** A toy instance of the verifier's primitives: a key is the certificate
    text, a token is its own algorithm name or its own signature, and a
    signature is valid when it equals the key. *)
Module ToyJwt.
Definition load_pem (pem : string) : option string := Some pem.
Definition claims : gmap string pyval :=
  <["exp" := PyInt 2000]> {["aud" := PyStr "someone-else"]}.
Definition split (token : string) : option Jwt :=
  Some (mkJwt token claims "header.payload" "pem").
Definition verify (key alg signing_input signature : string) : bool :=
  String.eqb key signature.
Definition forged (token : string) : option Jwt :=
  Some (mkJwt "RS256" {["aud" := PyStr "cid"]} "header.payload" token).
End ToyJwt.

(** ** Further methods of the facade *)

Section Queries.
Variable self : AsyncCasdoorSDK.



(** [get_users]. *)
Definition get_users : aio pyval :=
  let url := endpoint self +:+ "/api/get-users" in
  let params : gmap string string :=
    <["clientSecret" := client_secret self]>
      (<["clientId" := client_id self]>
         {["owner" := org_name self]}) in
  let* request := session_request (mkRequest GET url params NoBody) in
  let* users := aio_lift (json request) in
  aio_ret users.

(** [get_user]. *)
Definition get_user (user_id : string) : aio pyval :=
  let url := endpoint self +:+ "/api/get-user" in
  let params : gmap string string :=
    <["clientSecret" := client_secret self]>
      (<["clientId" := client_id self]>
         {["id" := org_name self +:+ "/" +:+ user_id]}) in
  let* request := session_request (mkRequest GET url params NoBody) in
  let* user := aio_lift (json request) in
  aio_ret user.

End Queries.

(** The value an asynchronous method hands back, or the exception it lets
    through, when run against a remote side. *)
Definition outcome {S A : Type} (server : S -> Request -> S * result Response)
    (s : S) (m : aio A) : result A :=
  snd (run server m s).

(** A text occurs in another one. *)
Definition occurs_in (needle hay : string) : Prop :=
  exists pre post, hay = pre +:+ needle +:+ post.

(** Further answers and stores for the examples. *)
Definition refused_response : Response :=
  mkResponse 403 ∅ (Ok (PyBool true)) (Ok "true") "<bound method>".

Definition error_report : Response :=
  mkResponse 500 {["content-type" := "application/json"]}
    (Ok (PyDict {["status" := PyStr "error"]})) (Ok "") "".

Definition own_store : gmap ref User :=
  {[1%positive := mkUser "built-in" "carol" ∅]}.

(** * Properties *)

(** ** Payload builder *)

Lemma truthy_nonempty (x : option string) : truthy x = true <-> nonempty x.
Proof.
  split.
  - destruct x as [[|a s]|]; simpl; try discriminate.
    intros _. exists (String a s). split; [reflexivity | discriminate].
  - intros (s & -> & Hs). destruct s; [contradiction | reflexivity].
Qed.

Lemma truthy_false_not_nonempty (x : option string) :
  truthy x = false <-> ~ nonempty x.
Proof.
  rewrite <- truthy_nonempty. destruct (truthy x); split; intros H;
    try reflexivity; try discriminate; try (intros H'; discriminate).
  exfalso. apply H. reflexivity.
Qed.

Lemma truthy_some (s : string) : s <> "" -> truthy (Some s) = true.
Proof. intros Hs. apply truthy_nonempty. exists s. auto. Qed.

(** C1, as amended.  Grant selection is a strict precedence on the arguments
    that are given and not empty: a non-empty [code] yields the
    authorization-code payload whatever the other two arguments are; without
    one, a non-empty [username] together with a non-empty [password] yields the
    password payload; every other input, partial credentials included, yields
    the client-credentials payload. *)
Theorem payload_precedence (self : AsyncCasdoorSDK)
    (code username password : option string) :
  let payload :=
    _get_payload_for_access_token_request self code username password in
  (forall c, code = Some c -> c <> "" ->
     payload = list_to_map [("grant_type", "authorization_code");
                            ("client_id", client_id self);
                            ("client_secret", client_secret self);
                            ("code", c)]) /\
  (forall u p, ~ nonempty code ->
     username = Some u -> u <> "" -> password = Some p -> p <> "" ->
     payload = list_to_map [("grant_type", "password");
                            ("client_id", client_id self);
                            ("client_secret", client_secret self);
                            ("username", u);
                            ("password", p)]) /\
  (~ nonempty code -> ~ (nonempty username /\ nonempty password) ->
     payload = list_to_map [("grant_type", "client_credentials");
                            ("client_id", client_id self);
                            ("client_secret", client_secret self)]).
Proof.
  cbv zeta. unfold _get_payload_for_access_token_request.
  split; [|split].
  - intros c -> Hc. rewrite (truthy_some c Hc). reflexivity.
  - intros u p Hcode -> Hu -> Hp.
    apply truthy_false_not_nonempty in Hcode. rewrite Hcode.
    unfold truthy_and. rewrite (truthy_some u Hu), (truthy_some p Hp).
    reflexivity.
  - intros Hcode Hup.
    apply truthy_false_not_nonempty in Hcode. rewrite Hcode.
    assert (truthy_and username password = false) as ->; [|reflexivity].
    unfold truthy_and.
    destruct (truthy username) eqn:Eu; [|reflexivity].
    destruct (truthy password) eqn:Ep; [|reflexivity].
    exfalso. apply Hup. split; apply truthy_nonempty; assumption.
Qed.

(** The three branches of [payload_precedence] on concrete arguments. *)
Lemma payload_precedence_witness :
  _get_payload_for_access_token_request demo (Some "abc") (Some "u") None
  = list_to_map [("grant_type", "authorization_code"); ("client_id", "cid");
                 ("client_secret", "secret"); ("code", "abc")]
  /\ _get_payload_for_access_token_request demo (Some "") (Some "u") (Some "p")
     = list_to_map [("grant_type", "password"); ("client_id", "cid");
                    ("client_secret", "secret"); ("username", "u");
                    ("password", "p")]
  /\ _get_payload_for_access_token_request demo None (Some "u") None
     = list_to_map [("grant_type", "client_credentials"); ("client_id", "cid");
                    ("client_secret", "secret")].
Proof.
  split; [|split].
  - apply (proj1 (payload_precedence demo (Some "abc") (Some "u") None) "abc");
      [reflexivity | discriminate].
  - apply (proj1 (proj2 (payload_precedence demo (Some "") (Some "u") (Some "p")))
             "u" "p"); try reflexivity; try discriminate.
    intros (s & Hs & Hne). injection Hs as <-. apply Hne. reflexivity.
  - apply (proj2 (proj2 (payload_precedence demo None (Some "u") None))).
    + intros (s & Hs & _). discriminate.
    + intros [_ (s & Hs & _)]. discriminate.
Defined.

(** C1 as stated fails on a given but empty argument: with [code = ""] the
    builder does not produce the authorization-code payload but the
    client-credentials one, and with [username = ""] and a password it does
    not produce the password payload. *)
Lemma payload_empty_code_counterexample :
  _get_payload_for_access_token_request demo (Some "") None None
    <> get_payload_for_authorization_code demo ""
  /\ _get_payload_for_access_token_request demo (Some "") None None
     = get_payload_for_client_credentials demo
  /\ _get_payload_for_access_token_request demo None (Some "") (Some "pw")
     <> get_payload_for_password_credentials demo "" "pw".
Proof.
  split; [|split].
  - intros H. apply (f_equal (fun m => m !! "code")) in H.
    vm_compute in H. discriminate.
  - reflexivity.
  - intros H. apply (f_equal (fun m => m !! "password")) in H.
    vm_compute in H. discriminate.
Qed.

(** ** Running one exchange *)

Section RunLemmas.
Context {S : Type} (server : S -> Request -> S * result Response).

Lemma run_session_bind {B} (req : Request) (f : Response -> aio B) (s : S) :
  run server (aio_bind (session_request req) f) s =
  match snd (server s req) with
  | Ok resp => run server (f resp) (fst (server s req))
  | Raise e => (fst (server s req), Raise e)
  end.
Proof.
  unfold aio_bind, session_request. simpl.
  destruct (server s req) as [s' [resp|e]]; reflexivity.
Qed.

Lemma run_bind {A B} (m : aio A) (f : A -> aio B) (s : S) :
  run server (aio_bind m f) s =
  match snd (run server m s) with
  | Ok a => run server (f a) (fst (run server m s))
  | Raise e => (fst (run server m s), Raise e)
  end.
Proof.
  unfold aio_bind. revert s.
  induction m as [r | req k IH]; intros s; simpl.
  - destruct r; reflexivity.
  - destruct (server s req) as [s' r]. apply IH.
Qed.

Lemma run_oauth_token_request self code username password s :
  run server (oauth_token_request self code username password) s =
  (fst (server s (access_token_call self
          (_get_payload_for_access_token_request self code username password))),
   match snd (server s (access_token_call self
          (_get_payload_for_access_token_request self code username password)))
   with
   | Ok resp => json resp
   | Raise e => Raise e
   end).
Proof.
  unfold oauth_token_request, _oauth_token_request.
  rewrite run_session_bind.
  match goal with
  | |- context [server s ?r] => destruct (server s r) as [s' [resp|e]]
  end; reflexivity.
Qed.

End RunLemmas.

(** ** Token client *)

(** C9.  Against every remote side and for every triple of arguments,
    [get_oauth_token] behaves exactly as [oauth_token_request], and what it
    returns is the whole decoded JSON body of the answer to the access-token
    request, not a field of it. *)
Theorem get_oauth_token_is_full_response
    {S : Type} (server : S -> Request -> S * result Response) (s : S)
    (self : AsyncCasdoorSDK) (code username password : option string) :
  run server (get_oauth_token self code username password) s
    = run server (oauth_token_request self code username password) s
  /\ snd (run server (get_oauth_token self code username password) s)
     = match answer server s
               (access_token_call self
                  (_get_payload_for_access_token_request
                     self code username password)) with
       | Ok response => json response
       | Raise e => Raise e
       end.
Proof.
  assert (run server (get_oauth_token self code username password) s
          = run server (oauth_token_request self code username password) s) as E.
  { unfold get_oauth_token. rewrite run_bind.
    destruct (run server (oauth_token_request self code username password) s)
      as [s' [v|e]]; reflexivity. }
  split; [exact E|].
  rewrite E, run_oauth_token_request. reflexivity.
Qed.

(** C5.  When the refresh request is answered by a JSON mapping [r],
    [refresh_oauth_token] returns the value of [r]'s [access_token] field when
    the field is there, in particular exactly the string it holds, and returns
    [None], without raising, when the field is missing. *)
Theorem refresh_oauth_token_access_token
    {S : Type} (server : S -> Request -> S * result Response) (s : S)
    (self : AsyncCasdoorSDK) (refresh_token scope : string)
    (response : Response) (r : gmap string pyval) :
  answer server s (refresh_token_call self refresh_token scope) = Ok response ->
  json response = Ok (PyDict r) ->
  let returned :=
    snd (run server (refresh_oauth_token self refresh_token scope) s) in
  (forall v, r !! "access_token" = Some v -> returned = Ok v) /\
  (forall tok, r !! "access_token" = Some (PyStr tok) ->
               returned = Ok (PyStr tok)) /\
  (r !! "access_token" = None -> returned = Ok PyNone).
Proof.
  unfold answer. intros Hans Hjson. cbv zeta.
  assert (snd (run server (refresh_oauth_token self refresh_token scope) s)
          = Ok (default PyNone (r !! "access_token"))) as E.
  { unfold refresh_oauth_token, refresh_token_request.
    rewrite run_bind, run_session_bind, Hans. simpl. rewrite Hjson. simpl.
    reflexivity. }
  rewrite E. repeat split.
  - intros v ->. reflexivity.
  - intros tok ->. reflexivity.
  - intros ->. reflexivity.
Qed.

(** A refresh response with the field and one without it. *)
Lemma refresh_oauth_token_access_token_witness :
  snd (run (constant_server
              (token_response (PyDict {["access_token" := PyStr "tok123"]})))
           (refresh_oauth_token demo "r" "") tt) = Ok (PyStr "tok123")
  /\ snd (run (constant_server
                 (token_response (PyDict {["token_type" := PyStr "Bearer"]})))
              (refresh_oauth_token demo "r" "") tt) = Ok PyNone.
Proof.
  split.
  - apply (proj1 (proj2 (refresh_oauth_token_access_token
             (constant_server
                (token_response (PyDict {["access_token" := PyStr "tok123"]})))
             tt demo "r" ""
             (token_response (PyDict {["access_token" := PyStr "tok123"]}))
             {["access_token" := PyStr "tok123"]} eq_refl eq_refl)) "tok123").
    reflexivity.
  - apply (proj2 (proj2 (refresh_oauth_token_access_token
             (constant_server
                (token_response (PyDict {["token_type" := PyStr "Bearer"]})))
             tt demo "r" ""
             (token_response (PyDict {["token_type" := PyStr "Bearer"]}))
             {["token_type" := PyStr "Bearer"]} eq_refl eq_refl))).
    reflexivity.
Defined.

(** ** enforce *)

(** What [enforce] returns is decided by [enforce_response] on a delivered
    response; an exception of the transport is passed on. *)
Lemma enforce_run {S : Type} (server : S -> Request -> S * result Response)
    (s : S) (self : AsyncCasdoorSDK) (m sub obj act : string)
    (v3 v4 v5 : option string) :
  snd (run server (enforce self m sub obj act v3 v4 v5) s) =
  match answer server s (enforce_request self m sub obj act v3 v4 v5) with
  | Ok response => snd (run server (enforce_response response) s)
  | Raise e => Raise e
  end.
Proof.
  unfold enforce, answer, aio_bind, session_request. simpl.
  destruct (server s _) as [s' [resp|e]]; simpl; [|reflexivity].
  unfold enforce_response, aio_bind, aio_lift. simpl.
  destruct (enforce_guard resp) as [[|]|]; simpl; try reflexivity.
  destruct (json resp) as [[]|]; simpl; try reflexivity;
    destruct (text resp); reflexivity.
Qed.

(** A status other than 200 raises [ValueError]. *)
Lemma enforce_response_bad_status (r : Response) :
  status r <> 200 ->
  enforce_response r =
  Return (Raise (ValueError ("Casdoor response error:" +:+ nl +:+ text_repr r))).
Proof.
  intros H. unfold enforce_response, enforce_guard.
  destruct (Z.eqb_spec (status r) 200); [contradiction | reflexivity].
Qed.

(** A content-type header without ["json"] in it raises [ValueError]. *)
Lemma enforce_response_not_json (r : Response) (ctype : string) :
  status r = 200 -> headers r !! "content-type" = Some ctype ->
  PyString.contains "json" ctype = false ->
  enforce_response r =
  Return (Raise (ValueError ("Casdoor response error:" +:+ nl +:+ text_repr r))).
Proof.
  intros Hs Hh Hc. unfold enforce_response, enforce_guard, getitem.
  rewrite Hs, Hh, Hc. reflexivity.
Qed.

(** Status 200, a JSON content-type and a boolean body: the boolean is
    returned. *)
Lemma enforce_response_bool (r : Response) (ctype : string) (b : bool) :
  status r = 200 -> headers r !! "content-type" = Some ctype ->
  PyString.contains "json" ctype = true ->
  json r = Ok (PyBool b) ->
  enforce_response r = Return (Ok b).
Proof.
  intros Hs Hh Hc Hj. unfold enforce_response, enforce_guard, getitem.
  rewrite Hs, Hh, Hc. simpl. rewrite Hj. reflexivity.
Qed.

(** Status 200, a JSON content-type and a decoded body that is not a boolean:
    [ValueError] with the text of the body. *)
Lemma enforce_response_not_bool (r : Response) (ctype : string) (v : pyval)
    (t : string) :
  status r = 200 -> headers r !! "content-type" = Some ctype ->
  PyString.contains "json" ctype = true ->
  json r = Ok v -> isinstance_bool v = false -> text r = Ok t ->
  enforce_response r =
  Return (Raise (ValueError ("Casdoor response error:" +:+ nl +:+ t))).
Proof.
  intros Hs Hh Hc Hj Hv Ht. unfold enforce_response, enforce_guard, getitem.
  rewrite Hs, Hh, Hc. simpl. rewrite Hj. simpl.
  destruct v; simpl in Hv; try discriminate; rewrite Ht; reflexivity.
Qed.

(** C4, where the code departs from it.  A delivered response with status 200
    and no content-type header, whatever its body, makes [enforce] raise
    [KeyError]: neither the boolean nor the [ValueError] that stands for the
    spec's [ResponseFormatError]. *)
Theorem enforce_missing_content_type (self : AsyncCasdoorSDK)
    (m sub obj act : string) (v3 v4 v5 : option string) :
  let response := mkResponse 200 ∅ (Ok (PyBool true)) (Ok "true") "" in
  enforce_response response = Return (Raise (KeyError "content-type"))
  /\ snd (run (constant_server response)
              (enforce self m sub obj act v3 v4 v5) tt)
     = Raise (KeyError "content-type").
Proof. split; reflexivity. Qed.

(** ** get_user_count *)

(** C6, as amended.  The query of [get_user_count] always carries the
    [isOnline] parameter next to [owner], [clientId] and [clientSecret]: the
    empty string when [is_online] is [None], ["1"] when it is true and ["0"]
    when it is false; and this query is what the GET request to
    [/api/get-user-count] sends. *)
Theorem get_user_count_filter (self : AsyncCasdoorSDK) :
  get_user_count_params self None
    = list_to_map [("owner", org_name self); ("clientId", client_id self);
                   ("clientSecret", client_secret self); ("isOnline", "")]
  /\ get_user_count_params self (Some true)
    = list_to_map [("owner", org_name self); ("clientId", client_id self);
                   ("clientSecret", client_secret self); ("isOnline", "1")]
  /\ get_user_count_params self (Some false)
    = list_to_map [("owner", org_name self); ("clientId", client_id self);
                   ("clientSecret", client_secret self); ("isOnline", "0")]
  /\ forall is_online,
       first_request (get_user_count self is_online)
       = Some (mkRequest GET (endpoint self +:+ "/api/get-user-count")
                 (get_user_count_params self is_online) NoBody).
Proof. repeat split; try reflexivity. Qed.

(** C6 as stated fails when [is_online] is [None]: the request does not omit
    the online filter, its query holds the key [isOnline] with the empty
    string. *)
Lemma get_user_count_unset_counterexample :
  req_params <$> first_request (get_user_count demo None)
    = Some (get_user_count_params demo None)
  /\ get_user_count_params demo None !! "isOnline" = Some ""
  /\ get_user_count_params demo None !! "isOnline" <> None.
Proof. repeat split; try reflexivity. discriminate. Qed.

(** ** modify_user *)

Section ModifyUser.
Variable self : AsyncCasdoorSDK.
Variable json_dumps : pyval -> string.

Lemma modify_user_unfold (method : string) (user : ref)
    (store : gmap ref User) (u : User) :
  store !! user = Some u ->
  modify_user self json_dumps method user store =
  let store' := <[user := set_owner (org_name self) u]> store in
  Await (modify_user_request self json_dumps method
           (set_owner (org_name self) u))
        (fun r => match r with
                  | Raise e => Return (store', Raise e)
                  | Ok request => Return (store', json request)
                  end).
Proof.
  intros H. unfold modify_user. rewrite H, lookup_insert_eq. reflexivity.
Qed.

Lemma user_methods_modify_user (method : string) (op : ref -> sio pyval) :
  In (method, op) (user_methods self json_dumps) ->
  op = modify_user self json_dumps method.
Proof.
  unfold user_methods. simpl.
  intros [H|[H|[H|[]]]]; injection H as <- <-; reflexivity.
Qed.

End ModifyUser.

(** C7.  For each of [add_user], [update_user] and [delete_user] and every
    user object, whatever owner the caller had set: the request is a POST to
    [{endpoint}/api/{method}] whose query identifier [id] is
    ["{org_name}/{name}"], and whose body is the serialisation of the full user
    object in which [owner] has been overwritten with the configured
    organization name. *)
Theorem modify_user_builds_request (self : AsyncCasdoorSDK)
    (json_dumps : pyval -> string) (method : string)
    (op : ref -> sio pyval) (user : ref) (store : gmap ref User) (u : User) :
  In (method, op) (user_methods self json_dumps) ->
  store !! user = Some u ->
  let sent := {| owner := org_name self; name := name u; attrs := attrs u |} in
  first_request (op user store)
  = Some (mkRequest POST (endpoint self +:+ "/api/" +:+ method)
            (list_to_map [("id", org_name self +:+ "/" +:+ name u);
                          ("clientId", client_id self);
                          ("clientSecret", client_secret self)])
            (TextData (json_dumps (PyDict (to_dict sent)))))
  /\ to_dict sent !! "owner" = Some (PyStr (org_name self)).
Proof.
  intros Hop Hu. cbv zeta.
  rewrite (user_methods_modify_user _ _ _ _ Hop).
  rewrite (modify_user_unfold _ _ _ _ _ _ Hu).
  split; [reflexivity | apply lookup_insert_eq].
Qed.

(** [add_user] on a user whose owner was set to something else. *)
Lemma modify_user_builds_request_witness :
  first_request (add_user demo demo_dumps 1%positive demo_store)
  = Some (mkRequest POST "http://localhost:8000/api/add-user"
            (list_to_map [("id", "built-in/alice"); ("clientId", "cid");
                          ("clientSecret", "secret")])
            (TextData "{...}"))
  /\ to_dict (mkUser "built-in" "alice" {["age" := PyInt 30]}) !! "owner"
     = Some (PyStr "built-in").
Proof.
  apply (modify_user_builds_request demo demo_dumps "add-user"
           (add_user demo demo_dumps) 1%positive demo_store demo_user).
  - simpl. left. reflexivity.
  - reflexivity.
Defined.

(** C10.  Each of [add_user], [update_user] and [delete_user] updates the
    object the caller passed, in place: after the call, whether it returned or
    raised, the object's [owner] is the configured organization name, its
    other fields are as before, and no other object has changed. *)
Theorem modify_user_mutates_owner_only
    {S : Type} (server : S -> Request -> S * result Response) (s : S)
    (self : AsyncCasdoorSDK) (json_dumps : pyval -> string) (method : string)
    (op : ref -> sio pyval) (user : ref) (store : gmap ref User) (u : User) :
  In (method, op) (user_methods self json_dumps) ->
  store !! user = Some u ->
  let store' := fst (snd (run server (op user store) s)) in
  store' !! user
    = Some {| owner := org_name self; name := name u; attrs := attrs u |}
  /\ forall other, other <> user -> store' !! other = store !! other.
Proof.
  intros Hop Hu. cbv zeta.
  rewrite (user_methods_modify_user _ _ _ _ Hop).
  rewrite (modify_user_unfold _ _ _ _ _ _ Hu). simpl.
  destruct (server s _) as [s' [resp|e]]; simpl.
  - split; [apply lookup_insert_eq|].
    intros other Hne. apply lookup_insert_ne. congruence.
  - split; [apply lookup_insert_eq|].
    intros other Hne. apply lookup_insert_ne. congruence.
Qed.

(** [delete_user] on a store with two users. *)
Lemma modify_user_mutates_owner_only_witness :
  let store' :=
    fst (snd (run (constant_server
                     (mkResponse 200 ∅ (Ok (PyStr "ok")) (Ok "ok") ""))
                  (delete_user demo demo_dumps 1%positive demo_store) tt)) in
  store' !! 1%positive = Some (mkUser "built-in" "alice" {["age" := PyInt 30]})
  /\ forall other, other <> 1%positive -> store' !! other = demo_store !! other.
Proof.
  apply (modify_user_mutates_owner_only
           (constant_server (mkResponse 200 ∅ (Ok (PyStr "ok")) (Ok "ok") ""))
           tt demo demo_dumps "delete-user" (delete_user demo demo_dumps)
           1%positive demo_store demo_user).
  - simpl. right. right. left. reflexivity.
  - reflexivity.
Defined.

(** ** The front endpoint *)

Module PyStringFacts.
Import PyString.

Lemma contains_cons_false (needle : string) (c : Ascii.ascii) (s : string) :
  contains needle (String c s) = false ->
  startswith needle (String c s) = false /\ contains needle s = false.
Proof.
  simpl. destruct (startswith needle (String c s)); [discriminate | auto].
Qed.

(** Replacing a text that does not occur changes nothing. *)
Lemma replace_absent (old new s : string) :
  contains old s = false -> replace old new s = s.
Proof.
  unfold replace. induction s as [|c s IH]; intros H; [reflexivity|].
  apply contains_cons_false in H as [Hp Hc].
  cbn [replace_from]. rewrite Hp, (IH Hc). reflexivity.
Qed.

(** [":8000"] does not overlap itself: an occurrence that starts before
    another one lies entirely before it. *)
Lemma port_no_overlap (c : Ascii.ascii) (host rest : string) :
  startswith ":8000" (String c (host +:+ ":8000" +:+ rest)) = true ->
  startswith ":8000" (String c host) = true.
Proof.
  destruct host as [|a1 [|a2 [|a3 [|a4 host]]]]; simpl;
    repeat (destruct (Ascii.eqb _ _); simpl; try discriminate); auto.
Qed.

(** The first occurrence of [":8000"] becomes [":7001"], and the replacement
    goes on behind it. *)
Lemma replace_port_first (host rest : string) :
  contains ":8000" host = false ->
  replace ":8000" ":7001" (host +:+ ":8000" +:+ rest)
  = host +:+ ":7001" +:+ replace ":8000" ":7001" rest.
Proof.
  unfold replace. induction host as [|c host IH]; intros H.
  - reflexivity.
  - apply contains_cons_false in H as [Hp Hc].
    change (String c host +:+ ":8000" +:+ rest)
      with (String c (host +:+ ":8000" +:+ rest)).
    cbn [replace_from].
    destruct (startswith ":8000" (String c (host +:+ ":8000" +:+ rest))) eqn:E.
    + apply port_no_overlap in E. congruence.
    + rewrite (IH Hc). reflexivity.
Qed.

End PyStringFacts.

(** C8, as amended.  At construction a front endpoint that is supplied and not
    empty is stored unchanged.  Otherwise the default is the endpoint with
    every [":8000"] replaced by [":7001"]: for an endpoint [host:8000rest] in
    which [":8000"] occurs nowhere else, neither in [host] nor in [rest], it
    is [host:7001rest], the same host with the front-end port 7001; and it is
    the endpoint itself when [":8000"] does not occur in it. *)
Theorem front_endpoint_default
    (endpoint client_id client_secret certificate org_name application_name
       : string) :
  let sdk := init endpoint client_id client_secret certificate org_name
                  application_name in
  (forall fe, fe <> "" -> front_endpoint (sdk (Some fe)) = fe) /\
  (forall fe, fe = None \/ fe = Some "" ->
     front_endpoint (sdk fe) = PyString.replace ":8000" ":7001" endpoint) /\
  (forall host rest,
     endpoint = host +:+ ":8000" +:+ rest ->
     PyString.contains ":8000" host = false ->
     PyString.contains ":8000" rest = false ->
     front_endpoint (sdk None) = host +:+ ":7001" +:+ rest) /\
  (PyString.contains ":8000" endpoint = false ->
     front_endpoint (sdk None) = endpoint).
Proof.
  cbv zeta. repeat split.
  - intros [|a fe] H; [contradiction | reflexivity].
  - intros fe [-> | ->]; reflexivity.
  - intros host rest -> Hh Hr. simpl.
    rewrite (PyStringFacts.replace_port_first _ _ Hh).
    rewrite (PyStringFacts.replace_absent _ _ _ Hr). reflexivity.
  - intros H. simpl. apply PyStringFacts.replace_absent, H.
Qed.

(** A supplied front endpoint, an endpoint on port 8000 and one without a
    port. *)
Lemma front_endpoint_default_witness :
  front_endpoint (init "http://localhost:8000" "cid" "secret" "pem" "built-in"
                       "app" (Some "http://localhost:7001"))
    = "http://localhost:7001"
  /\ front_endpoint (init "http://casdoor.local:8000/base" "cid" "secret" "pem"
                          "built-in" "app" None)
     = "http://casdoor.local:7001/base"
  /\ front_endpoint (init "https://door.casdoor.com" "cid" "secret" "pem"
                          "built-in" "app" None)
     = "https://door.casdoor.com".
Proof.
  split; [|split].
  - apply (proj1 (front_endpoint_default "http://localhost:8000" "cid" "secret"
                    "pem" "built-in" "app")). discriminate.
  - apply (proj1 (proj2 (proj2 (front_endpoint_default
             "http://casdoor.local:8000/base" "cid" "secret" "pem" "built-in"
             "app"))) "http://casdoor.local" "/base"); reflexivity.
  - apply (proj2 (proj2 (proj2 (front_endpoint_default
             "https://door.casdoor.com" "cid" "secret" "pem" "built-in"
             "app")))). reflexivity.
Defined.

(** C8 as stated fails twice: for an endpoint that does not use port 8000 the
    default front endpoint is the endpoint itself, with no differing port; and
    a front endpoint supplied as the empty string is not stored. *)
Lemma front_endpoint_counterexample :
  (let sdk := init "https://door.casdoor.com" "cid" "secret" "pem" "built-in"
                   "app" None in
   front_endpoint sdk = endpoint sdk)
  /\ front_endpoint (init "http://localhost:8000" "cid" "secret" "pem"
                          "built-in" "app" (Some ""))
     <> "".
Proof. split; [reflexivity | discriminate]. Qed.

(** The replacement is textual: where [":8000"] also occurs inside the host,
    as in an IPv6 literal, the host part of the default changes too. *)
Example front_endpoint_replaces_inside_host :
  front_endpoint (init "http://[fe80::8000:1]:8000" "cid" "secret" "pem"
                       "built-in" "app" None)
  = "http://[fe80::7001:1]:7001".
Proof. reflexivity. Qed.

(** ** JWT verifier *)

Section JwtFacts.
Variable PublicKey : Type.
Variable load_pem_public_key : string -> option PublicKey.
Variable split_token : string -> option Jwt.
Variable verify_signature : PublicKey -> string -> string -> string -> bool.
Variable now : Z.

Lemma audience_ok_true (claims : gmap string pyval) (audience : string) :
  audience_ok claims audience = true ->
  claims !! "aud" = Some (PyStr audience).
Proof.
  unfold audience_ok. destruct (claims !! "aud") as [[]|]; try discriminate.
  intros H. apply String.eqb_eq in H. congruence.
Qed.

(** Claims are returned only after every check has passed. *)
Lemma parse_jwt_token_ok (self : AsyncCasdoorSDK) (token : string)
    (claims : gmap string pyval) :
  parse_jwt_token PublicKey load_pem_public_key split_token verify_signature
                  now self token = Ok claims ->
  exists key t,
    load_pem_public_key (certificate self) = Some key /\
    split_token token = Some t /\
    jwt_alg t ∈ algorithms self /\
    verify_signature key (jwt_alg t) (jwt_signing_input t) (jwt_signature t)
      = true /\
    expired now (jwt_claims t) = false /\
    jwt_claims t !! "aud" = Some (PyStr (client_id self)) /\
    claims = jwt_claims t.
Proof.
  unfold parse_jwt_token, certification, load_pem_x509_certificate, jwt_decode.
  destruct (load_pem_public_key (certificate self)) as [key|]; [|discriminate].
  destruct (split_token token) as [t|]; [|discriminate].
  destruct (bool_decide (jwt_alg t ∈ algorithms self)) eqn:Ea;
    simpl; [|discriminate].
  destruct (verify_signature key _ _ _) eqn:Ev; simpl; [|discriminate].
  destruct (expired now (jwt_claims t)) eqn:Ee; [discriminate|].
  destruct (audience_ok (jwt_claims t) (client_id self)) eqn:Eo;
    simpl; [|discriminate].
  intros H. injection H as <-. exists key, t.
  apply bool_decide_eq_true in Ea. apply audience_ok_true in Eo.
  repeat split; assumption.
Qed.

End JwtFacts.

(** C2.  A token whose audience claim is not the configured [client_id] never
    yields claims from [parse_jwt_token]; and when its algorithm is allowed,
    its signature is valid under the public key of the configured certificate
    and it has not expired, the failure is [AudienceMismatchError]. *)
Theorem parse_jwt_token_audience_mismatch
    (PublicKey : Type) (load_pem_public_key : string -> option PublicKey)
    (split_token : string -> option Jwt)
    (verify_signature : PublicKey -> string -> string -> string -> bool)
    (now : Z) (self : AsyncCasdoorSDK) (token : string) (t : Jwt) :
  let parsed :=
    parse_jwt_token PublicKey load_pem_public_key split_token verify_signature
                    now self token in
  split_token token = Some t ->
  jwt_claims t !! "aud" <> Some (PyStr (client_id self)) ->
  (forall claims, parsed <> Ok claims) /\
  (forall key,
     load_pem_public_key (certificate self) = Some key ->
     jwt_alg t ∈ algorithms self ->
     verify_signature key (jwt_alg t) (jwt_signing_input t) (jwt_signature t)
       = true ->
     expired now (jwt_claims t) = false ->
     parsed = Raise AudienceMismatchError).
Proof.
  cbv zeta. intros Ht Haud. split.
  - intros claims H.
    apply parse_jwt_token_ok in H as (key & t' & _ & Ht' & _ & _ & _ & Ha & _).
    rewrite Ht in Ht'. injection Ht' as <-. contradiction.
  - intros key Hk Ha Hv He.
    unfold parse_jwt_token, certification, load_pem_x509_certificate, jwt_decode.
    rewrite Hk, Ht. rewrite (bool_decide_eq_true_2 _ Ha). simpl.
    rewrite Hv, He. simpl.
    destruct (audience_ok (jwt_claims t) (client_id self)) eqn:Eo;
      [|reflexivity].
    apply audience_ok_true in Eo. contradiction.
Qed.

(** A validly signed, unexpired RS256 token issued for another audience. *)
Lemma parse_jwt_token_audience_mismatch_witness :
  parse_jwt_token string ToyJwt.load_pem ToyJwt.split ToyJwt.verify 1000
                  demo "RS256"
  = Raise AudienceMismatchError.
Proof.
  refine (proj2 (parse_jwt_token_audience_mismatch string ToyJwt.load_pem
            ToyJwt.split ToyJwt.verify 1000 demo "RS256"
            (mkJwt "RS256" ToyJwt.claims "header.payload" "pem")
            eq_refl _) "pem" eq_refl _ eq_refl eq_refl).
  - vm_compute. discriminate.
  - vm_compute. left.
Defined.

(** C3.  For an SDK as constructed, whose allow-list is [["RS256"]]: a token
    signed with any other algorithm, or whose signature does not verify under
    the public key of the configured certificate, makes [parse_jwt_token]
    raise; it never returns a claims mapping. *)
Theorem parse_jwt_token_fails_closed
    (PublicKey : Type) (load_pem_public_key : string -> option PublicKey)
    (split_token : string -> option Jwt)
    (verify_signature : PublicKey -> string -> string -> string -> bool)
    (now : Z)
    (endpoint client_id client_secret certificate org_name application_name
       : string) (front_endpoint : option string) (token : string) (t : Jwt) :
  let self := init endpoint client_id client_secret certificate org_name
                   application_name front_endpoint in
  let parsed :=
    parse_jwt_token PublicKey load_pem_public_key split_token verify_signature
                    now self token in
  split_token token = Some t ->
  (jwt_alg t <> "RS256" \/
   forall key, load_pem_public_key certificate = Some key ->
     verify_signature key (jwt_alg t) (jwt_signing_input t) (jwt_signature t)
       = false) ->
  (exists e, parsed = Raise e) /\ (forall claims, parsed <> Ok claims).
Proof.
  cbv zeta. intros Ht Hbad.
  match goal with
  | |- (exists e, ?p = _) /\ _ => assert (forall claims, p <> Ok claims) as Hno
  end.
  { intros claims H.
    apply parse_jwt_token_ok in H as (key & t' & Hk & Ht' & Ha & Hv & _).
    rewrite Ht in Ht'. injection Ht' as <-. simpl in Hk, Ha.
    destruct Hbad as [Halg | Hsig].
    - apply Halg. apply list_elem_of_singleton in Ha. exact Ha.
    - rewrite (Hsig key Hk) in Hv. discriminate. }
  split; [|exact Hno].
  match goal with
  | |- exists e, ?p = _ => destruct p as [claims|e] eqn:E
  end.
  - exfalso. apply (Hno claims). reflexivity.
  - exists e. reflexivity.
Qed.

(** A token signed with HS256, and an RS256 token whose signature is not the
    certificate's. *)
Lemma parse_jwt_token_fails_closed_witness :
  (exists e, parse_jwt_token string ToyJwt.load_pem ToyJwt.split ToyJwt.verify
               1000 demo "HS256" = Raise e)
  /\ (exists e, parse_jwt_token string ToyJwt.load_pem ToyJwt.forged
                  ToyJwt.verify 1000 demo "not-the-key" = Raise e).
Proof.
  split.
  - apply (parse_jwt_token_fails_closed string ToyJwt.load_pem ToyJwt.split
             ToyJwt.verify 1000 "http://localhost:8000" "cid" "secret" "pem"
             "built-in" "app" None "HS256"
             (mkJwt "HS256" ToyJwt.claims "header.payload" "pem") eq_refl).
    left. discriminate.
  - apply (parse_jwt_token_fails_closed string ToyJwt.load_pem ToyJwt.forged
             ToyJwt.verify 1000 "http://localhost:8000" "cid" "secret" "pem"
             "built-in" "app" None "not-the-key"
             (mkJwt "RS256" {["aud" := PyStr "cid"]} "header.payload"
                    "not-the-key") eq_refl).
    right. intros key Hk. injection Hk as <-. reflexivity.
Defined.

(** * Further properties *)

(** ** What a token request carries *)

(** Evaluate the lookups of literal keys in maps built by literal inserts. *)
Ltac eval_lookups :=
  repeat match goal with
         | |- context [@lookup ?K ?A ?M ?L ?k ?m] =>
             let v := eval vm_compute in (@lookup K A M L k m) in
             progress change (@lookup K A M L k m) with v
         end.

(** X1.  Every payload names the client: whatever the arguments, it carries the
    configured [client_id] and [client_secret], and its [grant_type] is one of
    the three grants. *)
Theorem payload_names_client (self : AsyncCasdoorSDK)
    (code username password : option string) :
  let payload :=
    _get_payload_for_access_token_request self code username password in
  payload !! "client_id" = Some (client_id self) /\
  payload !! "client_secret" = Some (client_secret self) /\
  (payload !! "grant_type" = Some "authorization_code" \/
   payload !! "grant_type" = Some "password" \/
   payload !! "grant_type" = Some "client_credentials").
Proof.
  cbv zeta. unfold _get_payload_for_access_token_request.
  destruct (truthy code); [|destruct (truthy_and username password)];
    repeat split; try reflexivity; auto.
Qed.

(** X2.  The grant type tells which arguments were used, and the payload holds no
    credential of another grant: [code] is in it exactly when the grant is
    [authorization_code], [username] and [password] exactly when it is
    [password]. *)
Theorem payload_grant_type_fields (self : AsyncCasdoorSDK)
    (code username password : option string) :
  let payload :=
    _get_payload_for_access_token_request self code username password in
  (payload !! "grant_type" = Some "authorization_code" <-> nonempty code) /\
  (payload !! "grant_type" = Some "password" <->
     ~ nonempty code /\ nonempty username /\ nonempty password) /\
  (is_Some (payload !! "code") <-> nonempty code) /\
  (is_Some (payload !! "username") <->
     ~ nonempty code /\ nonempty username /\ nonempty password) /\
  (is_Some (payload !! "password") <->
     ~ nonempty code /\ nonempty username /\ nonempty password).
Proof.
  cbv zeta. unfold _get_payload_for_access_token_request, truthy_and.
  rewrite <- !truthy_nonempty.
  destruct (truthy code);
    [|destruct (truthy username); [destruct (truthy password)|]];
    rewrite ?is_Some_alt; eval_lookups;
    intuition (try discriminate; try congruence).
Qed.

(** X3.  On the wire: with a code given, [get_oauth_token] posts a form to
    [{endpoint}/api/login/oauth/access_token] with an empty query, and the form
    holds neither the username nor the password, whatever was passed for
    them. *)
Theorem get_oauth_token_code_sends_no_credentials (self : AsyncCasdoorSDK)
    (c : string) (username password : option string) :
  c <> "" ->
  exists form,
    first_request (get_oauth_token self (Some c) username password)
    = Some (mkRequest POST (endpoint self +:+ "/api/login/oauth/access_token")
              ∅ (FormData form))
    /\ form !! "code" = Some c
    /\ form !! "username" = None
    /\ form !! "password" = None.
Proof.
  intros Hc.
  exists (get_payload_for_authorization_code self c).
  unfold get_oauth_token, oauth_token_request,
    _get_payload_for_access_token_request.
  rewrite (truthy_some c Hc). repeat split; reflexivity.
Qed.

Lemma get_oauth_token_code_sends_no_credentials_witness :
  exists form,
    first_request (get_oauth_token demo (Some "abc") (Some "u") (Some "p"))
    = Some (mkRequest POST "http://localhost:8000/api/login/oauth/access_token"
              ∅ (FormData form))
    /\ form !! "code" = Some "abc"
    /\ form !! "username" = None
    /\ form !! "password" = None.
Proof.
  apply (get_oauth_token_code_sends_no_credentials demo "abc" (Some "u")
           (Some "p")).
  discriminate.
Defined.

(** ** Refreshing a token *)

Lemma refresh_oauth_token_outcome
    {S : Type} (server : S -> Request -> S * result Response) (s : S)
    (self : AsyncCasdoorSDK) (refresh_token scope : string) :
  outcome server s (refresh_oauth_token self refresh_token scope) =
  match answer server s (refresh_token_call self refresh_token scope) with
  | Raise e => Raise e
  | Ok response =>
      match json response with
      | Raise e => Raise e
      | Ok r => py_get r "access_token"
      end
  end.
Proof.
  unfold outcome, answer, refresh_oauth_token, refresh_token_request.
  rewrite run_bind, run_session_bind.
  destruct (server s _) as [s' [response|e]]; simpl; [|reflexivity].
  destruct (json response) as [r|e]; simpl; [|reflexivity].
  destruct (py_get r "access_token"); reflexivity.
Qed.

(** X4.  A refresh response that decodes to something other than a JSON object
    (a list, a string, a number, a boolean, [null]) makes
    [refresh_oauth_token] raise [AttributeError]: the value has no [get]. *)
Theorem refresh_oauth_token_not_a_mapping
    {S : Type} (server : S -> Request -> S * result Response) (s : S)
    (self : AsyncCasdoorSDK) (refresh_token scope : string)
    (response : Response) (r : pyval) :
  answer server s (refresh_token_call self refresh_token scope) = Ok response ->
  json response = Ok r ->
  (forall d, r <> PyDict d) ->
  outcome server s (refresh_oauth_token self refresh_token scope)
  = Raise (AttributeError "get").
Proof.
  intros Ha Hj Hr. rewrite refresh_oauth_token_outcome, Ha, Hj.
  destruct r; try reflexivity. exfalso. apply (Hr d). reflexivity.
Qed.

Lemma refresh_oauth_token_not_a_mapping_witness :
  outcome (constant_server (token_response (PyList [PyStr "tok123"]))) tt
          (refresh_oauth_token demo "r" "")
  = Raise (AttributeError "get").
Proof.
  apply (refresh_oauth_token_not_a_mapping
           (constant_server (token_response (PyList [PyStr "tok123"]))) tt
           demo "r" "" (token_response (PyList [PyStr "tok123"]))
           (PyList [PyStr "tok123"]) eq_refl eq_refl).
  intros d H. discriminate.
Defined.

(** X5.  [refresh_oauth_token] handles no failure itself: an exception of the
    transport and an exception of the JSON decoding both reach the caller
    unchanged. *)
Theorem refresh_oauth_token_propagates
    {S : Type} (server : S -> Request -> S * result Response) (s : S)
    (self : AsyncCasdoorSDK) (refresh_token scope : string) (e : exn) :
  (answer server s (refresh_token_call self refresh_token scope) = Raise e \/
   exists response,
     answer server s (refresh_token_call self refresh_token scope) = Ok response
     /\ json response = Raise e) ->
  outcome server s (refresh_oauth_token self refresh_token scope) = Raise e.
Proof.
  rewrite refresh_oauth_token_outcome.
  intros [-> | (response & -> & ->)]; reflexivity.
Qed.

Lemma refresh_oauth_token_propagates_witness :
  outcome (fun (s : unit) (_ : Request) =>
             (s, @Raise Response (TransportError "connection refused")))
          tt (refresh_oauth_token demo "r" "")
  = Raise (TransportError "connection refused").
Proof.
  apply (refresh_oauth_token_propagates
           (fun (s : unit) (_ : Request) =>
              (s, @Raise Response (TransportError "connection refused")))
           tt demo "r" "" (TransportError "connection refused")).
  left. reflexivity.
Defined.

(** X6.  The caller of [refresh_oauth_token] cannot tell a missing [access_token]
    from one that is [null]: on a JSON object the method returns [None] in
    exactly these two cases, whatever the status of the response. *)
Theorem refresh_oauth_token_none_iff
    {S : Type} (server : S -> Request -> S * result Response) (s : S)
    (self : AsyncCasdoorSDK) (refresh_token scope : string)
    (response : Response) (r : gmap string pyval) :
  answer server s (refresh_token_call self refresh_token scope) = Ok response ->
  json response = Ok (PyDict r) ->
  (outcome server s (refresh_oauth_token self refresh_token scope) = Ok PyNone
   <-> r !! "access_token" = None \/ r !! "access_token" = Some PyNone).
Proof.
  intros Ha Hj. rewrite refresh_oauth_token_outcome, Ha, Hj. simpl.
  destruct (r !! "access_token") as [v|]; simpl.
  - split.
    + intros H. injection H as ->. right. reflexivity.
    + intros [H | H]; [discriminate | injection H as ->; reflexivity].
  - split; auto.
Qed.

Lemma refresh_oauth_token_none_iff_witness :
  outcome (constant_server
             (mkResponse 400 ∅ (Ok (PyDict {["error" := PyStr "invalid_grant"]}))
                         (Ok "") ""))
          tt (refresh_oauth_token demo "r" "")
  = Ok PyNone.
Proof.
  apply (proj2 (refresh_oauth_token_none_iff
           (constant_server
              (mkResponse 400 ∅
                 (Ok (PyDict {["error" := PyStr "invalid_grant"]})) (Ok "") ""))
           tt demo "r" ""
           (mkResponse 400 ∅ (Ok (PyDict {["error" := PyStr "invalid_grant"]}))
                       (Ok "") "")
           {["error" := PyStr "invalid_grant"]} eq_refl eq_refl)).
  left. reflexivity.
Defined.

(** ** Substrings *)

Module PyStringIn.
Import PyString.

Lemma startswith_app (p post : string) : startswith p (p +:+ post) = true.
Proof.
  induction p as [|a p IH]; simpl; [reflexivity|].
  rewrite Ascii.eqb_refl. exact IH.
Qed.

Lemma startswith_inv (p s : string) :
  startswith p s = true -> exists post, s = p +:+ post.
Proof.
  revert s. induction p as [|a p IH]; intros s H.
  - exists s. reflexivity.
  - destruct s as [|b s]; simpl in H; [discriminate|].
    destruct (Ascii.eqb_spec a b) as [->|]; [|discriminate].
    destruct (IH s H) as [post ->]. exists post. reflexivity.
Qed.

End PyStringIn.

(** The test [needle in hay] of the model is the substring test: it succeeds
    exactly when [hay] is some text, then [needle], then some text. *)
Theorem contains_iff_occurs (needle hay : string) :
  PyString.contains needle hay = true <-> occurs_in needle hay.
Proof.
  unfold occurs_in. split.
  - induction hay as [|c hay IH]; simpl.
    + destruct (PyString.startswith needle "") eqn:E; [|discriminate].
      intros _. apply PyStringIn.startswith_inv in E as [post E].
      exists "", post. exact E.
    + destruct (PyString.startswith needle (String c hay)) eqn:E.
      * intros _. apply PyStringIn.startswith_inv in E as [post E].
        exists "", post. exact E.
      * intros H. destruct (IH H) as (pre & post & ->).
        exists (String c pre), post. reflexivity.
  - intros (pre & post & ->). induction pre as [|c pre IH].
    + simpl. destruct post, needle; simpl;
        rewrite ?Ascii.eqb_refl, ?PyStringIn.startswith_app; reflexivity.
    + change (String c pre +:+ needle +:+ post)
        with (String c (pre +:+ needle +:+ post)).
      cbn [PyString.contains]. rewrite IH.
      destruct (PyString.startswith needle _); reflexivity.
Qed.

(** ** The outcomes of enforce *)

Section EnforceOutcomes.
Context {S : Type} (server : S -> Request -> S * result Response) (s : S).
Variable self : AsyncCasdoorSDK.
Variables (m sub obj act : string) (v3 v4 v5 : option string).

Lemma enforce_outcome_delivered (response : Response) (x : result bool) :
  answer server s (enforce_request self m sub obj act v3 v4 v5) = Ok response ->
  enforce_response response = Return x ->
  outcome server s (enforce self m sub obj act v3 v4 v5) = x.
Proof.
  intros Ha Hx. unfold outcome. rewrite enforce_run, Ha, Hx. reflexivity.
Qed.

(** X7.  [enforce] grants nothing by accident: it returns a boolean only when the
    remote side answered with status 200, a content-type header in which
    ["json"] occurs, and a body that decodes to that very boolean. *)
Theorem enforce_returns_only_the_answer (b : bool) :
  outcome server s (enforce self m sub obj act v3 v4 v5) = Ok b ->
  exists response ctype,
    answer server s (enforce_request self m sub obj act v3 v4 v5) = Ok response
    /\ status response = 200
    /\ headers response !! "content-type" = Some ctype
    /\ occurs_in "json" ctype
    /\ json response = Ok (PyBool b).
Proof.
  unfold outcome. rewrite enforce_run.
  destruct (answer server s _) as [response|e]; [|discriminate].
  unfold enforce_response, enforce_guard, getitem, aio_bind, aio_lift.
  destruct (Z.eqb_spec (status response) 200) as [Hs|Hs]; simpl;
    [|discriminate].
  destruct (headers response !! "content-type") as [ctype|] eqn:Hh; simpl;
    [|discriminate].
  destruct (PyString.contains "json" ctype) eqn:Hc; simpl; [|discriminate].
  destruct (json response) as [v|e] eqn:Hj; simpl; [|discriminate].
  destruct v; simpl; try (destruct (text response); simpl; discriminate).
  intros H. injection H as ->.
  exists response, ctype. repeat split; try assumption.
  apply contains_iff_occurs. exact Hc.
Qed.

(** X8.  A status other than 200 is refused before anything else is looked at:
    [enforce] raises [ValueError] whatever the headers and the body are, even
    without a content-type header and with a body that says [true].  The
    message carries the printed form of the [text] method, not the body. *)
Theorem enforce_refuses_bad_status (response : Response) :
  answer server s (enforce_request self m sub obj act v3 v4 v5) = Ok response ->
  status response <> 200 ->
  outcome server s (enforce self m sub obj act v3 v4 v5)
  = Raise (ValueError
             ("Casdoor response error:" +:+ nl +:+ text_repr response)).
Proof.
  intros Ha Hs. apply (enforce_outcome_delivered response _ Ha).
  apply enforce_response_bad_status, Hs.
Qed.

(** X9.  With status 200 and a content-type header, the test on the header is
    a case-sensitive substring test.  If ["json"] does not occur in the header
    value, [enforce] raises [ValueError] without decoding the body.  If it
    occurs anywhere in it, the test is passed and [response.json()] decides:
    when that call yields a boolean, [enforce] returns this boolean. *)
Theorem enforce_content_type_test (response : Response) (ctype : string) :
  answer server s (enforce_request self m sub obj act v3 v4 v5) = Ok response ->
  status response = 200 ->
  headers response !! "content-type" = Some ctype ->
  (~ occurs_in "json" ctype ->
   outcome server s (enforce self m sub obj act v3 v4 v5)
   = Raise (ValueError
              ("Casdoor response error:" +:+ nl +:+ text_repr response))) /\
  (occurs_in "json" ctype ->
   forall b, json response = Ok (PyBool b) ->
   outcome server s (enforce self m sub obj act v3 v4 v5) = Ok b).
Proof.
  intros Ha Hs Hh. split.
  - intros Hno. apply (enforce_outcome_delivered response _ Ha).
    apply (enforce_response_not_json response ctype Hs Hh).
    destruct (PyString.contains "json" ctype) eqn:E; [|reflexivity].
    exfalso. apply Hno, contains_iff_occurs, E.
  - intros Hocc b Hj. apply (enforce_outcome_delivered response _ Ha).
    apply (enforce_response_bool response ctype b Hs Hh); [|exact Hj].
    apply contains_iff_occurs, Hocc.
Qed.

(** X10.  A body that decodes to anything but a boolean is refused, the integers 0
    and 1 and the strings ["true"] and ["false"] included: [enforce] raises
    [ValueError] with the text of the body. *)
Theorem enforce_refuses_non_boolean (response : Response) (ctype : string)
    (v : pyval) (t : string) :
  answer server s (enforce_request self m sub obj act v3 v4 v5) = Ok response ->
  status response = 200 ->
  headers response !! "content-type" = Some ctype ->
  occurs_in "json" ctype ->
  json response = Ok v ->
  (forall b, v <> PyBool b) ->
  text response = Ok t ->
  outcome server s (enforce self m sub obj act v3 v4 v5)
  = Raise (ValueError ("Casdoor response error:" +:+ nl +:+ t)).
Proof.
  intros Ha Hs Hh Hocc Hj Hv Ht.
  apply (enforce_outcome_delivered response _ Ha).
  apply (enforce_response_not_bool response ctype v t Hs Hh); try assumption.
  - apply contains_iff_occurs, Hocc.
  - destruct v; try reflexivity. exfalso. apply (Hv b). reflexivity.
Qed.

(** X11.  An exception of the transport, or of the decoding of the body, is not
    turned into [ValueError]: it reaches the caller as it is. *)
Theorem enforce_propagates (e : exn) :
  (answer server s (enforce_request self m sub obj act v3 v4 v5) = Raise e \/
   exists response ctype,
     answer server s (enforce_request self m sub obj act v3 v4 v5) = Ok response
     /\ status response = 200
     /\ headers response !! "content-type" = Some ctype
     /\ occurs_in "json" ctype
     /\ json response = Raise e) ->
  outcome server s (enforce self m sub obj act v3 v4 v5) = Raise e.
Proof.
  intros [Ha | (response & ctype & Ha & Hs & Hh & Hocc & Hj)].
  - unfold outcome. rewrite enforce_run, Ha. reflexivity.
  - apply (enforce_outcome_delivered response _ Ha).
    apply contains_iff_occurs in Hocc.
    unfold enforce_response, enforce_guard, getitem.
    rewrite Hs, Hh, Hocc. simpl. rewrite Hj. reflexivity.
Qed.

End EnforceOutcomes.


Lemma enforce_returns_only_the_answer_witness :
  exists response ctype,
    answer (constant_server (token_response (PyBool true))) tt
           (enforce_request demo "model" "alice" "data1" "read" None None None)
    = Ok response
    /\ status response = 200
    /\ headers response !! "content-type" = Some ctype
    /\ occurs_in "json" ctype
    /\ json response = Ok (PyBool true).
Proof.
  apply (enforce_returns_only_the_answer
           (constant_server (token_response (PyBool true))) tt demo
           "model" "alice" "data1" "read" None None None true).
  reflexivity.
Defined.

Lemma enforce_refuses_bad_status_witness :
  outcome (constant_server refused_response) tt
          (enforce demo "model" "alice" "data1" "read" None None None)
  = Raise (ValueError ("Casdoor response error:" +:+ nl +:+ "<bound method>")).
Proof.
  apply (enforce_refuses_bad_status (constant_server refused_response) tt demo
           "model" "alice" "data1" "read" None None None refused_response).
  - reflexivity.
  - discriminate.
Defined.

(** A response typed [text/html], and one typed
    [application/json; charset=utf-8] whose body decodes to [false]. *)
Lemma enforce_content_type_test_witness :
  outcome (constant_server
             (mkResponse 200 {["content-type" := "text/html"]}
                         (Ok (PyBool true)) (Ok "true") "<bound method>"))
          tt (enforce demo "model" "alice" "data1" "read" None None None)
  = Raise (ValueError ("Casdoor response error:" +:+ nl +:+ "<bound method>"))
  /\ outcome (constant_server
                (mkResponse 200
                   {["content-type" := "application/json; charset=utf-8"]}
                   (Ok (PyBool false)) (Ok "false") "<bound method>"))
             tt (enforce demo "model" "alice" "data1" "read" None None None)
     = Ok false.
Proof.
  split.
  - refine (proj1 (enforce_content_type_test
             (constant_server
                (mkResponse 200 {["content-type" := "text/html"]}
                            (Ok (PyBool true)) (Ok "true") "<bound method>"))
             tt demo "model" "alice" "data1" "read" None None None
             (mkResponse 200 {["content-type" := "text/html"]}
                         (Ok (PyBool true)) (Ok "true") "<bound method>")
             "text/html" _ _ _) _); try reflexivity.
    intros H. apply contains_iff_occurs in H. vm_compute in H. discriminate.
  - refine (proj2 (enforce_content_type_test
             (constant_server
                (mkResponse 200
                   {["content-type" := "application/json; charset=utf-8"]}
                   (Ok (PyBool false)) (Ok "false") "<bound method>"))
             tt demo "model" "alice" "data1" "read" None None None
             (mkResponse 200
                {["content-type" := "application/json; charset=utf-8"]}
                (Ok (PyBool false)) (Ok "false") "<bound method>")
             "application/json; charset=utf-8" _ _ _) _ false _);
      try reflexivity.
    exists "application/", "; charset=utf-8". reflexivity.
Defined.

Lemma enforce_refuses_non_boolean_witness :
  outcome (constant_server
             (mkResponse 200 {["content-type" := "application/json"]}
                         (Ok (PyInt 1)) (Ok "1") "<bound method>"))
          tt (enforce demo "model" "alice" "data1" "read" None None None)
  = Raise (ValueError ("Casdoor response error:" +:+ nl +:+ "1")).
Proof.
  refine (enforce_refuses_non_boolean
           (constant_server
              (mkResponse 200 {["content-type" := "application/json"]}
                          (Ok (PyInt 1)) (Ok "1") "<bound method>"))
           tt demo "model" "alice" "data1" "read" None None None
           (mkResponse 200 {["content-type" := "application/json"]}
                       (Ok (PyInt 1)) (Ok "1") "<bound method>")
           "application/json" (PyInt 1) "1" _ _ _ _ _ _ _);
    try reflexivity.
  - exists "application/", "". reflexivity.
  - intros b H. discriminate.
Defined.

Lemma enforce_propagates_witness :
  outcome (constant_server
             (mkResponse 200 {["content-type" := "application/json"]}
                         (Raise (ValueError "Expecting value"))
                         (Ok "oops") "<bound method>"))
          tt (enforce demo "model" "alice" "data1" "read" None None None)
  = Raise (ValueError "Expecting value").
Proof.
  apply (enforce_propagates
           (constant_server
              (mkResponse 200 {["content-type" := "application/json"]}
                          (Raise (ValueError "Expecting value"))
                          (Ok "oops") "<bound method>"))
           tt demo "model" "alice" "data1" "read" None None None
           (ValueError "Expecting value")).
  right. eexists _, "application/json".
  repeat split; try reflexivity.
  exists "application/", "". reflexivity.
Defined.

(** ** Queries for users *)

(** X12.  The three states of the online filter stay apart on the wire: two calls of
    [get_user_count] with different [is_online] never build the same query. *)
Theorem get_user_count_params_injective (self : AsyncCasdoorSDK)
    (a b : option bool) :
  a <> b -> get_user_count_params self a <> get_user_count_params self b.
Proof.
  intros Hab H. apply Hab.
  apply (f_equal (fun m => m !! "isOnline")) in H.
  destruct a as [[|]|], b as [[|]|]; try reflexivity;
    unfold get_user_count_params in H;
    rewrite !lookup_insert_eq in H; discriminate.
Qed.

Lemma get_user_count_params_injective_witness :
  get_user_count_params demo None <> get_user_count_params demo (Some false).
Proof.
  apply (get_user_count_params_injective demo None (Some false)).
  discriminate.
Defined.

Section QueryOutcomes.
Context {S : Type} (server : S -> Request -> S * result Response) (s : S).
Variable self : AsyncCasdoorSDK.

Lemma query_outcome (req : Request) :
  outcome server s
    (aio_bind (session_request req)
       (fun request => aio_bind (aio_lift (json request)) aio_ret))
  = match answer server s req with
    | Ok response => json response
    | Raise e => Raise e
    end.
Proof.
  unfold outcome, answer. rewrite run_session_bind.
  destruct (server s req) as [s' [response|e]]; simpl; [|reflexivity].
  destruct (json response); reflexivity.
Qed.

(** X13.  [get_users], [get_user] and [get_user_count] check nothing: whatever the
    status and the headers of a delivered response, each returns its decoded
    body as it is, an error report of the server included. *)
Theorem user_queries_pass_through (response : Response) :
  (answer server s
     (mkRequest GET (endpoint self +:+ "/api/get-users")
        (list_to_map [("owner", org_name self); ("clientId", client_id self);
                      ("clientSecret", client_secret self)]) NoBody)
   = Ok response ->
   outcome server s (get_users self) = json response) /\
  (forall user_id,
     answer server s
       (mkRequest GET (endpoint self +:+ "/api/get-user")
          (list_to_map [("id", org_name self +:+ "/" +:+ user_id);
                        ("clientId", client_id self);
                        ("clientSecret", client_secret self)]) NoBody)
     = Ok response ->
     outcome server s (get_user self user_id) = json response) /\
  (forall is_online,
     answer server s
       (mkRequest GET (endpoint self +:+ "/api/get-user-count")
          (get_user_count_params self is_online) NoBody)
     = Ok response ->
     outcome server s (get_user_count self is_online) = json response).
Proof.
  split; [|split].
  - intros Ha. unfold get_users. rewrite query_outcome.
    change (answer server s _) with
      (answer server s
         (mkRequest GET (endpoint self +:+ "/api/get-users")
            (list_to_map [("owner", org_name self);
                          ("clientId", client_id self);
                          ("clientSecret", client_secret self)]) NoBody)).
    rewrite Ha. reflexivity.
  - intros user_id Ha. unfold get_user. rewrite query_outcome.
    change (answer server s _) with
      (answer server s
         (mkRequest GET (endpoint self +:+ "/api/get-user")
            (list_to_map [("id", org_name self +:+ "/" +:+ user_id);
                          ("clientId", client_id self);
                          ("clientSecret", client_secret self)]) NoBody)).
    rewrite Ha. reflexivity.
  - intros is_online Ha. unfold get_user_count. rewrite query_outcome, Ha.
    reflexivity.
Qed.

End QueryOutcomes.


Lemma user_queries_pass_through_witness :
  outcome (constant_server error_report) tt (get_users demo)
    = Ok (PyDict {["status" := PyStr "error"]})
  /\ outcome (constant_server error_report) tt (get_user demo "alice")
     = Ok (PyDict {["status" := PyStr "error"]})
  /\ outcome (constant_server error_report) tt (get_user_count demo None)
     = Ok (PyDict {["status" := PyStr "error"]}).
Proof.
  split; [|split].
  - apply (proj1 (user_queries_pass_through (constant_server error_report) tt
                    demo error_report)). reflexivity.
  - apply (proj1 (proj2 (user_queries_pass_through
                    (constant_server error_report) tt demo error_report))
             "alice"). reflexivity.
  - apply (proj2 (proj2 (user_queries_pass_through
                    (constant_server error_report) tt demo error_report))
             None). reflexivity.
Defined.

(** ** Modifying users *)

(** X14.  A user that was added is found again: the [id] under which [add_user],
    [update_user] and [delete_user] send a user is the [id] that [get_user]
    asks for when given the user's name, whatever owner the caller had set. *)
Theorem modify_user_id_is_get_user_id (self : AsyncCasdoorSDK)
    (json_dumps : pyval -> string) (method : string) (op : ref -> sio pyval)
    (user : ref) (store : gmap ref User) (u : User) :
  In (method, op) (user_methods self json_dumps) ->
  store !! user = Some u ->
  (first_request (op user store) ≫= (fun r => req_params r !! "id"))
  = (first_request (get_user self (name u)) ≫= (fun r => req_params r !! "id"))
  /\ (first_request (get_user self (name u)) ≫= (fun r => req_params r !! "id"))
     = Some (org_name self +:+ "/" +:+ name u).
Proof.
  intros Hop Hu.
  rewrite (user_methods_modify_user _ _ _ _ Hop).
  rewrite (modify_user_unfold _ _ _ _ _ _ Hu). split; reflexivity.
Qed.

Lemma modify_user_id_is_get_user_id_witness :
  (first_request (update_user demo demo_dumps 1%positive demo_store)
     ≫= (fun r => req_params r !! "id"))
  = (first_request (get_user demo "alice") ≫= (fun r => req_params r !! "id"))
  /\ (first_request (get_user demo "alice") ≫= (fun r => req_params r !! "id"))
     = Some "built-in/alice".
Proof.
  apply (modify_user_id_is_get_user_id demo demo_dumps "update-user"
           (update_user demo demo_dumps) 1%positive demo_store demo_user).
  - simpl. right. left. reflexivity.
  - reflexivity.
Defined.

Lemma set_owner_twice (v : string) (u : User) :
  set_owner v (set_owner v u) = set_owner v u.
Proof. reflexivity. Qed.

Lemma set_owner_same (u : User) : set_owner (owner u) u = u.
Proof. destruct u. reflexivity. Qed.

(** X15.  Calling one of the three methods again on the same object changes nothing
    more: the second call sends the request the first one sent and leaves the
    store as the first one left it. *)
Theorem modify_user_idempotent
    {S : Type} (server : S -> Request -> S * result Response) (s s2 : S)
    (self : AsyncCasdoorSDK) (json_dumps : pyval -> string) (method : string)
    (op : ref -> sio pyval) (user : ref) (store : gmap ref User) (u : User) :
  In (method, op) (user_methods self json_dumps) ->
  store !! user = Some u ->
  let store1 := fst (snd (run server (op user store) s)) in
  first_request (op user store1) = first_request (op user store)
  /\ fst (snd (run server (op user store1) s2)) = store1.
Proof.
  intros Hop Hu. cbv zeta.
  rewrite (user_methods_modify_user _ _ _ _ Hop).
  assert (fst (snd (run server (modify_user self json_dumps method user store) s))
          = <[user := set_owner (org_name self) u]> store) as ->.
  { rewrite (modify_user_unfold _ _ _ _ _ _ Hu). simpl.
    destruct (server s _) as [s' [resp|e]]; reflexivity. }
  rewrite (modify_user_unfold _ _ _ _ _ _ Hu).
  rewrite (modify_user_unfold _ _ _ _ _ (set_owner (org_name self) u)
             (lookup_insert_eq _ _ _)).
  rewrite set_owner_twice, insert_insert_eq. simpl. split; [reflexivity|].
  destruct (server s2 _) as [s' [resp|e]]; reflexivity.
Qed.

Lemma modify_user_idempotent_witness :
  let server := constant_server (token_response (PyStr "ok")) in
  let store1 :=
    fst (snd (run server (add_user demo demo_dumps 1%positive demo_store) tt)) in
  first_request (add_user demo demo_dumps 1%positive store1)
    = first_request (add_user demo demo_dumps 1%positive demo_store)
  /\ fst (snd (run server (add_user demo demo_dumps 1%positive store1) tt))
     = store1.
Proof.
  apply (modify_user_idempotent (constant_server (token_response (PyStr "ok")))
           tt tt demo demo_dumps "add-user" (add_user demo demo_dumps)
           1%positive demo_store demo_user).
  - simpl. left. reflexivity.
  - reflexivity.
Defined.

(** X16.  A user that already belongs to the configured organization is left as it
    is: the call changes nothing in the store. *)
Theorem modify_user_own_user_unchanged
    {S : Type} (server : S -> Request -> S * result Response) (s : S)
    (self : AsyncCasdoorSDK) (json_dumps : pyval -> string) (method : string)
    (op : ref -> sio pyval) (user : ref) (store : gmap ref User) (u : User) :
  In (method, op) (user_methods self json_dumps) ->
  store !! user = Some u ->
  owner u = org_name self ->
  fst (snd (run server (op user store) s)) = store.
Proof.
  intros Hop Hu Ho.
  rewrite (user_methods_modify_user _ _ _ _ Hop).
  rewrite (modify_user_unfold _ _ _ _ _ _ Hu). simpl.
  rewrite <- Ho, set_owner_same, (insert_id _ _ _ Hu).
  destruct (server s _) as [s' [resp|e]]; reflexivity.
Qed.


Lemma modify_user_own_user_unchanged_witness :
  fst (snd (run (constant_server (token_response (PyStr "ok")))
                (update_user demo demo_dumps 1%positive own_store) tt))
  = own_store.
Proof.
  apply (modify_user_own_user_unchanged
           (constant_server (token_response (PyStr "ok"))) tt demo demo_dumps
           "update-user" (update_user demo demo_dumps) 1%positive own_store
           (mkUser "built-in" "carol" ∅)).
  - simpl. right. left. reflexivity.
  - reflexivity.
  - reflexivity.
Defined.

(** X17.  What [modify_user] hands back is the decoded body of the answer, whatever
    its status; and when the transport raises, the exception reaches the
    caller although the object has already been changed. *)
Theorem modify_user_result
    {S : Type} (server : S -> Request -> S * result Response) (s : S)
    (self : AsyncCasdoorSDK) (json_dumps : pyval -> string) (method : string)
    (op : ref -> sio pyval) (user : ref) (store : gmap ref User) (u : User) :
  In (method, op) (user_methods self json_dumps) ->
  store !! user = Some u ->
  snd (snd (run server (op user store) s))
  = match answer server s
            (modify_user_request self json_dumps method
               (set_owner (org_name self) u)) with
    | Ok response => json response
    | Raise e => Raise e
    end.
Proof.
  intros Hop Hu. unfold answer.
  rewrite (user_methods_modify_user _ _ _ _ Hop).
  rewrite (modify_user_unfold _ _ _ _ _ _ Hu). simpl.
  destruct (server s _) as [s' [resp|e]]; reflexivity.
Qed.

Lemma modify_user_result_witness :
  snd (snd (run (fun (s : unit) (_ : Request) =>
                   (s, @Raise Response (TransportError "timeout")))
                (delete_user demo demo_dumps 1%positive demo_store) tt))
  = Raise (TransportError "timeout").
Proof.
  apply (modify_user_result
           (fun (s : unit) (_ : Request) =>
              (s, @Raise Response (TransportError "timeout")))
           tt demo demo_dumps "delete-user" (delete_user demo demo_dumps)
           1%positive demo_store demo_user).
  - simpl. right. right. left. reflexivity.
  - reflexivity.
Defined.

(** ** The authorization link and the default front endpoint *)

Module PyStringReplace.
Import PyString.

Lemma startswith_cons (a c : Ascii.ascii) (p s : string) :
  startswith (String a p) (String c s)
  = if Ascii.eqb a c then startswith p s else false.
Proof. reflexivity. Qed.

(** A text without a colon that starts the replaced string started the
    original one. *)
Lemma startswith_replace (p : string) :
  contains ":" p = false ->
  forall s, startswith p (replace ":8000" ":7001" s) = true ->
            startswith p s = true.
Proof.
  unfold replace. induction p as [|a p IH]; intros Hp s; [reflexivity|].
  apply PyStringFacts.contains_cons_false in Hp as [Ha Hp].
  destruct s as [|c s]; [simpl; discriminate|].
  cbn [replace_from].
  destruct (startswith ":8000" (String c s)) eqn:E.
  - cbn [startswith] in Ha. simpl. rewrite Ascii.eqb_sym.
    destruct (Ascii.eqb _ a); discriminate.
  - simpl. destruct (Ascii.eqb a c); [|discriminate]. apply IH, Hp.
Qed.

Lemma contains_replace_from (s : string) (k : nat) :
  contains ":8000" (replace_from ":8000" ":7001" k s) = false.
Proof.
  revert k. induction s as [|c s IH]; intros k; [reflexivity|].
  cbn [replace_from]. destruct k as [|k]; [|apply IH].
  destruct (startswith ":8000" (String c s)) eqn:E.
  - pose proof (IH (Nat.pred (String.length ":8000"))) as H.
    simpl. exact H.
  - cbn [contains]. rewrite (IH 0%nat).
    destruct (startswith ":8000" (String c (replace_from ":8000" ":7001" 0 s)))
      eqn:E'; [|reflexivity].
    rewrite startswith_cons in E, E'.
    destruct (Ascii.eqb _ c); [|discriminate].
    apply (startswith_replace "8000") in E'; [|reflexivity].
    rewrite E' in E. discriminate.
Qed.


End PyStringReplace.

(** X18.  Built without a front endpoint, the SDK never keeps port 8000 for its
    front side: [":8000"] does not occur in the default front endpoint,
    however often it occurs in the endpoint, and deriving the default once
    more from the result changes nothing. *)
Theorem front_endpoint_default_has_no_8000
    (endpoint client_id client_secret certificate org_name application_name
       : string) :
  let front :=
    front_endpoint (init endpoint client_id client_secret certificate org_name
                         application_name None) in
  ~ occurs_in ":8000" front /\
  front_endpoint (init front client_id client_secret certificate org_name
                       application_name None) = front.
Proof.
  cbv zeta. simpl.
  pose proof (PyStringReplace.contains_replace_from endpoint 0) as H.
  fold (PyString.replace ":8000" ":7001" endpoint) in H. split.
  - intros Hocc. apply contains_iff_occurs in Hocc. congruence.
  - apply PyStringFacts.replace_absent, H.
Qed.


